(** * Checkout session of r-shopping-typescript

    A shallow embedding of [src/modules/shopping/services/checkout.ts]
    ([MainCheckoutService]: [clear], [scan], [summary], [total]) together with
    the collaborators it talks to: the item repository, the promotion
    strategies and the JavaScript values the code computes with (IEEE-754
    numbers and their decimal rendering, strings, [undefined]/[null]).

    Every operation of the service is a function from the session to the
    returned [Output], the session afterwards and the list of calls the
    operation made on its collaborators and on the console. *)

From Stdlib Require Import ZArith List String Ascii Bool Lia.
From Stdlib Require Import SpecFloat DecimalString.
From stdpp Require Import gmap strings.
Import ListNotations.

Local Open Scope string_scope.

(** ** JavaScript numbers

    A JS [number] is an IEEE-754 binary64 value.  The operations are the ones
    of [SpecFloat] at precision 53 and maximal exponent 1024, rounding to
    nearest, ties to even. *)
Module JSNumber.
Local Open Scope Z_scope.

Definition prec : Z := 53.
Definition emax : Z := 1024.

Definition number : Type := spec_float.

Definition zero : number := S754_zero false.
Definition NaN : number := S754_nan.

(** [x + y] and [x - y] *)
Definition add (x y : number) : number := SFadd prec emax x y.
Definition sub (x y : number) : number := SFsub prec emax x y.

(** The number nearest to the fraction [a / b]. *)
Definition of_ratio (a b : positive) : number :=
  let '(mz, ez, lz) := SFdiv_core_binary prec emax (Zpos a) 0 (Zpos b) 0 in
  binary_round_aux prec emax false mz ez lz.

(** The value of the decimal literal [digits]e[exp10], for instance
    [of_decimal 199 (-2)] for the literal [1.99]. *)
Definition of_decimal (digits exp10 : Z) : number :=
  match digits with
  | Z0 => zero
  | Zpos d =>
      if 0 <=? exp10 then binary_normalize prec emax (Zpos d * 10 ^ exp10) 0 false
      else of_ratio d (Z.to_pos (10 ^ (- exp10)))
  | Zneg d =>
      SFopp (if 0 <=? exp10 then binary_normalize prec emax (Zpos d * 10 ^ exp10) 0 false
             else of_ratio d (Z.to_pos (10 ^ (- exp10))))
  end.

Definition of_Z (z : Z) : number := of_decimal z 0.

(** ToBoolean on a number: [+0], [-0] and [NaN] are falsy. *)
Definition truthy (x : number) : bool :=
  match x with
  | S754_zero _ | S754_nan => false
  | _ => true
  end.

Definition is_nan (x : number) : bool :=
  match x with S754_nan => true | _ => false end.

Definition is_zero (x : number) : bool :=
  match x with S754_zero _ => true | _ => false end.

(** Same representation (used to test that a decimal reads back to [x]). *)
Definition same_bits (x y : number) : bool :=
  match x, y with
  | S754_zero a, S754_zero b => Bool.eqb a b
  | S754_infinity a, S754_infinity b => Bool.eqb a b
  | S754_nan, S754_nan => true
  | S754_finite a m e, S754_finite b m' e' =>
      Bool.eqb a b && Pos.eqb m m' && Z.eqb e e'
  | _, _ => false
  end.

(** *** Number::toString (radix 10)

    The digits are the shortest decimal [s] (with [k] digits and decimal
    exponent [n]) such that [s * 10^(n-k)] reads back to the same number;
    among several of the same length, the one closest to the number. *)

(** The exact value of the positive finite number [m * 2^e], as a fraction. *)
Definition fraction (m : positive) (e : Z) : Z * Z :=
  if 0 <=? e then (Zpos m * 2 ^ e, 1) else (Zpos m, 2 ^ (- e)).

Fixpoint exponent_up (fuel : nat) (num den n : Z) : Z :=
  match fuel with
  | O => n
  | S fuel' =>
      if den * 10 ^ n <=? num then exponent_up fuel' num den (n + 1) else n
  end.

Fixpoint exponent_down (fuel : nat) (num den n : Z) : Z :=
  match fuel with
  | O => n
  | S fuel' =>
      if num * 10 ^ (1 - n) <? den then exponent_down fuel' num den (n - 1) else n
  end.

(** The [n] with [10^(n-1) <= num/den < 10^n]. *)
Definition decimal_exponent (num den : Z) : Z :=
  if den <=? num then exponent_up 400 num den 1 else exponent_down 400 num den 0.

(** [num/den * 10^j] as a fraction. *)
Definition scale10 (num den j : Z) : Z * Z :=
  if 0 <=? j then (num * 10 ^ j, den) else (num, den * 10 ^ (- j)).

(** A candidate with [k] digits: the digits [s] and the exponent [n]. *)
Definition normalise (k s n : Z) : Z * Z :=
  if s =? 10 ^ k then (10 ^ (k - 1), n + 1) else (s, n).

Definition reads_back (x : number) (k : Z) (c : Z * Z) : bool :=
  same_bits (of_decimal (fst c) (snd c - k)) x.

Definition candidate (x : number) (num den n k : Z) : option (Z * Z) :=
  let '(a, b) := scale10 num den (k - n) in
  let lo := a / b in
  let r := a mod b in
  let below := normalise k lo n in
  let above := normalise k (lo + 1) n in
  match reads_back x k below, reads_back x k above with
  | true, true =>
      match 2 * r ?= b with
      | Lt => Some below
      | Gt => Some above
      | Eq => Some (if Z.even lo then below else above)
      end
  | true, false => Some below
  | false, true => Some above
  | false, false => None
  end.

Fixpoint shortest (fuel : nat) (x : number) (num den n k : Z) : Z * Z * Z :=
  match fuel with
  | O => (k, fst (scale10 num den (k - n)) / snd (scale10 num den (k - n)), n)
  | S fuel' =>
      match candidate x num den n k with
      | Some (s, n') => (k, s, n')
      | None => shortest fuel' x num den n (k + 1)
      end
  end.

Definition digits_of (s : Z) : string :=
  NilZero.string_of_uint (N.to_uint (Z.to_N s)).

Fixpoint zeros (n : nat) : string :=
  match n with
  | O => ""
  | S n' => String "0" (zeros n')
  end.

Definition render (k s n : Z) : string :=
  let ds := digits_of s in
  if (k <=? n) && (n <=? 21) then
    ds ++ zeros (Z.to_nat (n - k))
  else if (0 <? n) && (n <=? 21) then
    substring 0 (Z.to_nat n) ds ++ "." ++ substring (Z.to_nat n) (Z.to_nat (k - n)) ds
  else if (-6 <? n) && (n <=? 0) then
    "0." ++ zeros (Z.to_nat (- n)) ++ ds
  else
    let e := n - 1 in
    let sign := if e <? 0 then "-" else "+" in
    let mant :=
      if k =? 1 then ds
      else substring 0 1 ds ++ "." ++ substring 1 (Z.to_nat (k - 1)) ds in
    mant ++ "e" ++ sign ++ digits_of (Z.abs e).

Definition toString_pos (m : positive) (e : Z) : string :=
  let '(num, den) := fraction m e in
  let n := decimal_exponent num den in
  let '(k, s, n') := shortest 17 (S754_finite false m e) num den n 1 in
  render k s n'.

Definition toString (x : number) : string :=
  match x with
  | S754_nan => "NaN"
  | S754_zero _ => "0"
  | S754_infinity false => "Infinity"
  | S754_infinity true => "-Infinity"
  | S754_finite false m e => toString_pos m e
  | S754_finite true m e => "-" ++ toString_pos m e
  end.
End JSNumber.

Import JSNumber.
Local Open Scope list_scope.

(** ** Data model *)

(** [Item] of [item/types/item], read through the [Promotion] type the price
    reducer of [summary] uses: [price] and [discount] may be absent. *)
Record Item : Type := {
  sku : string;
  name : string;
  price : option number;
  discount : option number
}.

(** The error objects of [common/error], and any other error object a
    repository may report. *)
Inductive ErrorKind : Type :=
| InvalidInputError
| ItemNotFoundError
| EmptyCartError
| OtherError (message : string).

(** [Output<T>]: both fields are optional. *)
Record Output (T : Type) : Type := {
  data : option T;
  error : option ErrorKind
}.
Arguments data {T} _.
Arguments error {T} _.

(** A call on a collaborator either returns or throws. *)
Inductive Outcome (A : Type) : Type :=
| Returns (a : A)
| Throws (fault : string).
Arguments Returns {A} a.
Arguments Throws {A} fault.

(** [ItemRepository], as far as the checkout service uses it. *)
Record ItemRepository : Type := {
  selectOne : string -> Outcome (Output Item)
}.

(** [PromotionService]: one method, [apply]. *)
Record PromotionService : Type := {
  apply : list Item -> Outcome (list Item)
}.

(** The argument of [scan]: typed [string], called with [undefined] and
    [null] as well. *)
Inductive SkuArg : Type :=
| Undefined
| Null
| Str (s : string).

(** What the service does to the outside during one operation. *)
Inductive Logged : Type :=
| LoggedFault (fault : string)
| LoggedError (e : option ErrorKind).

Inductive Call : Type :=
| CallSelectOne (itemSKU : string) (result : Outcome (Output Item))
| CallApply (cart : list Item) (result : Outcome (list Item))
| ConsoleError (message : string) (detail : Logged)
| ConsoleLog (line : option string).

(** ** lodash [isEmpty] at the types it is used with *)

Definition isEmpty_list {A : Type} (l : list A) : bool :=
  match l with
  | [] => true
  | _ :: _ => false
  end.

Definition isEmpty_string (s : string) : bool :=
  match s with
  | EmptyString => true
  | String _ _ => false
  end.

(** An [Item] object has the own enumerable keys [sku] and [name]. *)
Definition isEmpty_item (_ : Item) : bool := false.

(** [undefined] is empty. *)
Definition isEmpty_option {A : Type} (f : A -> bool) (o : option A) : bool :=
  match o with
  | None => true
  | Some a => f a
  end.

(** [isEmpty] on an error object answers whether the object has no own
    enumerable property; that depends on how the classes of [common/error]
    (and the errors of a repository) are declared. *)
Class ErrorObjects : Type := {
  error_isEmpty : ErrorKind -> bool
}.

(** ** [MainCheckoutService] *)

Record MainCheckoutService : Type := {
  items : list Item;
  itemRepository : ItemRepository;
  promotionServices : list PromotionService
}.

Definition with_items (this : MainCheckoutService) (l : list Item) : MainCheckoutService :=
  {| items := l;
     itemRepository := itemRepository this;
     promotionServices := promotionServices this |}.

(** The result of an operation: what it returns, the session afterwards and
    the calls it made. *)
Definition Run (A : Type) : Type := (A * MainCheckoutService * list Call)%type.

(** [constructor]; [testItemRepository] is the module's demo repository. *)
Definition constructor (testItemRepository : ItemRepository)
    (promotionServices : list PromotionService)
    (itemRepository : option ItemRepository) : MainCheckoutService :=
  {| items := [];
     itemRepository := match itemRepository with
                       | Some r => r
                       | None => testItemRepository
                       end;
     promotionServices := promotionServices |}.

(** [clear()]: the assignment in the [try] block cannot throw, so the [catch]
    branch (which would log and leave [data = false]) is never taken. *)
Definition clear (this : MainCheckoutService) : Run (Output bool) :=
  ({| data := Some true; error := None |}, with_items this [], []).

(** ToBoolean on the argument of [scan]. *)
Definition sku_truthy (itemSKU : SkuArg) : option string :=
  match itemSKU with
  | Undefined | Null => None
  | Str s => if isEmpty_string s then None else Some s
  end.

(** [scan(itemSKU)]: every [return output] of the source is one branch; a
    throw of [selectOne] is caught, logged, and leaves [data = false]. *)
Definition scan `{ErrorObjects} (this : MainCheckoutService) (itemSKU : SkuArg)
    : Run (Output bool) :=
  match sku_truthy itemSKU with
  | None => ({| data := Some false; error := Some InvalidInputError |}, this, [])
  | Some s =>
      let result := selectOne (itemRepository this) s in
      match result with
      | Throws fault =>
          ({| data := Some false; error := None |}, this,
           [CallSelectOne s result;
            ConsoleError "Failed scanning item, Error:" (LoggedFault fault)])
      | Returns selectItemOutput =>
          if negb (isEmpty_option error_isEmpty (error selectItemOutput)) then
            ({| data := Some false; error := error selectItemOutput |}, this,
             [CallSelectOne s result])
          else
            match data selectItemOutput with
            | Some item =>
                if isEmpty_item item then
                  ({| data := Some false; error := Some ItemNotFoundError |}, this,
                   [CallSelectOne s result])
                else
                  ({| data := Some true; error := None |},
                   with_items this (items this ++ [item]),
                   [CallSelectOne s result])
            | None =>
                ({| data := Some false; error := Some ItemNotFoundError |}, this,
                 [CallSelectOne s result])
            end
      end
  end.

(** The loop over the promotion services: each result is pushed on the cart
    before the next service is called; a throw leaves the loop. *)
Fixpoint applyPromotions (services : list PromotionService) (cart : list Item)
    : list Item * list Call * option string :=
  match services with
  | [] => (cart, [], None)
  | promotionService :: rest =>
      let result := apply promotionService cart in
      match result with
      | Throws fault => (cart, [CallApply cart result], Some fault)
      | Returns added =>
          let '(cart', calls, fault) := applyPromotions rest (cart ++ added) in
          (cart', CallApply cart result :: calls, fault)
      end
  end.

(** [item => { if (item?.sku) return item.sku }] *)
Definition skuOf (item : Item) : option string :=
  if isEmpty_string (sku item) then None else Some (sku item).

(** [Array.prototype.join]: an [undefined] element is rendered empty. *)
Fixpoint join (sep : string) (l : list (option string)) : string :=
  match l with
  | [] => ""
  | [x] => default "" x
  | x :: rest => default "" x +:+ sep +:+ join sep rest
  end.

Definition number_truthy (o : option number) : bool :=
  match o with
  | Some x => truthy x
  | None => false
  end.

Definition itemsReducer (priceAccumulator : number) (currentItem : Item) : number :=
  let modifier := zero in
  let modifier :=
    if number_truthy (price currentItem)
    then add modifier (default zero (price currentItem)) else modifier in
  let modifier :=
    if number_truthy (discount currentItem)
    then sub modifier (default zero (discount currentItem)) else modifier in
  add priceAccumulator modifier.

Definition newline : string := String (ascii_of_nat 10) "".

(** The string [summary] builds from the cart after the promotions. *)
Definition report (cart : list Item) : string :=
  let itemSKUs := join ", " (map skuOf cart) in
  let totalPrice := fold_left itemsReducer cart zero in
  let scannedItems := "SKUs Scanned: " +:+ itemSKUs in
  let total := "Total expected: $" +:+ toString totalPrice in
  scannedItems +:+ newline +:+ total.

(** [summary()]: the promotions are pushed on the session's own array; a
    throw of a promotion service is caught and logged, the output then has
    neither data nor error, and what was pushed before the throw stays. *)
Definition summary (this : MainCheckoutService) : Run (Output string) :=
  if isEmpty_list (items this) then
    ({| data := None; error := Some EmptyCartError |}, this, [])
  else
    let '(cart, calls, fault) :=
      if negb (isEmpty_list (promotionServices this))
      then applyPromotions (promotionServices this) (items this)
      else (items this, [], None) in
    match fault with
    | Some f =>
        ({| data := None; error := None |}, with_items this cart,
         calls ++ [ConsoleError "Failed calculating total, Error:" (LoggedFault f)])
    | None =>
        ({| data := Some (report cart); error := None |}, with_items this cart, calls)
    end.

(** [total()]: returns nothing; it logs a failed summary and prints the
    data of the summary, [undefined] included. *)
Definition total (this : MainCheckoutService) : MainCheckoutService * list Call :=
  let '(summaryOutput, this', calls) := summary this in
  let failed :=
    isEmpty_option isEmpty_string (data summaryOutput)
    || bool_decide (is_Some (error summaryOutput)) in
  (this',
   calls
   ++ (if failed
       then [ConsoleError "Failed totaling checkout, Error:"
               (LoggedError (error summaryOutput))]
       else [])
   ++ [ConsoleLog (data summaryOutput)]).

(** The two states of the session's state machine. *)
Inductive CartState : Type := Empty | Populated.

Definition state_of (this : MainCheckoutService) : CartState :=
  if isEmpty_list (items this) then Empty else Populated.

(** Projections of a run. *)
Definition output_of {A : Type} (r : Run A) : A := fst (fst r).
Definition session_of {A : Type} (r : Run A) : MainCheckoutService := snd (fst r).
Definition calls_of {A : Type} (r : Run A) : list Call := snd r.

(** The items the promotion services returned, read off the calls. *)
Definition returned (calls : list Call) : list Item :=
  flat_map (fun c => match c with
                     | CallApply _ (Returns added) => added
                     | _ => []
                     end) calls.

(** ** The collaborators that are not part of the sources *)

(** Modelled from the spec: [MockItemRepository] ([item/repositories/mock]) is
    not among the sources.  Section 4.1: a mapping from SKU to Item;
    [insertMany] inserts every item keyed by SKU, overwrites on a duplicate
    SKU and answers [data = true]; [selectOne] answers the stored item, or an
    [Output] with neither data nor error when the SKU is not stored. *)
Module MockItemRepository.
Definition insertMany (newItems : list Item) (store : gmap string Item)
    : Output bool * gmap string Item :=
  ({| data := Some true; error := None |},
   fold_left (fun m item => <[sku item := item]> m) newItems store).

Definition selectOne (store : gmap string Item) (itemSKU : string) : Output Item :=
  {| data := store !! itemSKU; error := None |}.

(** The repository object over a store, as the checkout service sees it. *)
Definition repository (store : gmap string Item) : ItemRepository :=
  Build_ItemRepository (fun itemSKU => Returns (selectOne store itemSKU)).
End MockItemRepository.

(** Modelled from the spec: [PromotionRuleItem] ([promotion/types/promotion])
    is not among the sources.  Section 3: an Item extended with [bundleItems]
    and [minimumQuantity], an integer that is at least 1. *)
Record PromotionRuleItem : Type := {
  ruleItem : Item;
  bundleItems : list Item;
  minimumQuantity : positive
}.

(** Modelled from the spec: [BundlePromotionService]
    ([promotion/services/bundle]) is not among the sources.  Section 4.2,
    steps 1 to 4: for each rule, count the occurrences of the rule's SKU in
    the cart, take [floor (count / minimumQuantity)] qualifying groups, emit
    for each group one copy of each bundle item, and return everything that
    was emitted, rule after rule. *)
Module BundlePromotionService.
Definition countSku (ruleSKU : string) (cart : list Item) : nat :=
  fold_left (fun count item => if String.eqb (sku item) ruleSKU then S count else count)
            cart O.

Definition qualifyingGroups (rule : PromotionRuleItem) (cart : list Item) : nat :=
  Nat.div (countSku (sku (ruleItem rule)) cart) (Pos.to_nat (minimumQuantity rule)).

(** One copy of each bundle item, pushed on what was emitted so far. *)
Definition emitGroup (bundle : list Item) (emitted : list Item) : list Item :=
  fold_left (fun out item => out ++ [item]) bundle emitted.

Fixpoint emitGroups (groups : nat) (bundle : list Item) (emitted : list Item)
    : list Item :=
  match groups with
  | O => emitted
  | S groups' => emitGroups groups' bundle (emitGroup bundle emitted)
  end.

Definition apply (rules : list PromotionRuleItem) (cart : list Item) : list Item :=
  fold_left (fun emitted rule =>
               emitGroups (qualifyingGroups rule cart) (bundleItems rule) emitted)
            rules [].

(** The strategy object built from its rules. *)
Definition service (rules : list PromotionRuleItem) : PromotionService :=
  Build_PromotionService (fun cart => Returns (apply rules cart)).
End BundlePromotionService.

(** ** The fixtures of [checkout.test.ts] *)
Module Fixtures.
Definition mkItem (itemSKU itemName : string) (itemPrice : number) : Item :=
  {| sku := itemSKU; name := itemName; price := Some itemPrice; discount := None |}.

Definition promotionRuleItem1 : Item := mkItem "p01" "valid-name-p1" (of_Z 1).
Definition promotionRuleItem2 : Item := mkItem "p02" "valid-name-p2" (of_decimal 5 (-1)).

(** [{ ...promotionRuleItem2, price: 0 }], free on bundle *)
Definition freeItem2 : Item := mkItem "p02" "valid-name-p2" (of_Z 0).

Definition rule1 : PromotionRuleItem :=
  {| ruleItem := promotionRuleItem1;
     bundleItems := [freeItem2];
     minimumQuantity := 2%positive |}.

Definition bundlePromotionService : PromotionService :=
  BundlePromotionService.service [rule1].

Definition inserted (newItems : list Item) (store : gmap string Item) : gmap string Item :=
  snd (MockItemRepository.insertMany newItems store).

Definition store0 : gmap string Item :=
  inserted [promotionRuleItem1; promotionRuleItem2] ∅.

Definition checkoutService (store : gmap string Item) : MainCheckoutService :=
  constructor (MockItemRepository.repository ∅) [bundlePromotionService]
              (Some (MockItemRepository.repository store)).

(** Scanning a list of SKUs, one after the other. *)
Definition scanAll `{ErrorObjects} (this : MainCheckoutService) (skus : list string)
    : MainCheckoutService :=
  fold_left (fun s itemSKU => session_of (scan s (Str itemSKU))) skus this.

Definition t01 : Item := mkItem "t01" "valid-name" (of_decimal 199 (-2)).
Definition t02 : Item := mkItem "t02" "valid-name" (of_Z 2).
Definition t04 : Item := mkItem "t04" "valid-name" (of_decimal 99 (-2)).

(** A second strategy, "two p02 give a free p03", registered after the
    first one. *)
Definition p03 : Item := mkItem "p03" "valid-name-p3" (of_Z 0).

Definition rule2 : PromotionRuleItem :=
  {| ruleItem := promotionRuleItem2;
     bundleItems := [p03];
     minimumQuantity := 2%positive |}.

Definition twoStrategies (store : gmap string Item) : MainCheckoutService :=
  constructor (MockItemRepository.repository ∅)
              [bundlePromotionService; BundlePromotionService.service [rule2]]
              (Some (MockItemRepository.repository store)).

(** Error classes that carry an own enumerable property. *)
Definition namedErrors : ErrorObjects := {| error_isEmpty := fun _ => false |}.
End Fixtures.
Import Fixtures.

(** ** The report, in the words of the specification *)

Definition priceOr0 (item : Item) : number := default zero (price item).
Definition discountOr0 (item : Item) : number := default zero (discount item).

(** The sum over the items of price minus discount, an absent one being 0. *)
Definition sumOfPrices (cart : list Item) : number :=
  fold_left (fun acc item => add acc (sub (priceOr0 item) (discountOr0 item))) cart zero.

Definition twoLines (cart : list Item) : string :=
  "SKUs Scanned: " +:+ String.concat ", " (map sku cart) +:+ newline
  +:+ "Total expected: $" +:+ toString (sumOfPrices cart).

(** Prices and discounts that are numbers ([NaN] is not). *)
Definition isNumber (o : option number) : bool :=
  match o with
  | Some x => negb (is_nan x)
  | None => true
  end.

Definition pricedInNumbers (item : Item) : bool :=
  isNumber (price item) && isNumber (discount item).

(** Equal up to the sign of zero, which [toString] does not show. *)
Definition same_value (x y : number) : Prop :=
  x = y \/ (is_zero x = true /\ is_zero y = true).

(** The modifier [itemsReducer] adds to its accumulator. *)
Definition modifierOf (item : Item) : number :=
  let modifier := zero in
  let modifier :=
    if number_truthy (price item) then add modifier (default zero (price item))
    else modifier in
  if number_truthy (discount item) then sub modifier (default zero (discount item))
  else modifier.

(** ** Sequences of operations *)

(** The calls a user of the service can make on a session. *)
Inductive Operation : Type :=
| DoClear
| DoScan (itemSKU : SkuArg)
| DoSummary
| DoTotal.

(** The session after one operation. *)
Definition perform `{ErrorObjects} (this : MainCheckoutService) (op : Operation)
    : MainCheckoutService :=
  match op with
  | DoClear => session_of (clear this)
  | DoScan itemSKU => session_of (scan this itemSKU)
  | DoSummary => session_of (summary this)
  | DoTotal => fst (total this)
  end.

Definition performAll `{ErrorObjects} (this : MainCheckoutService)
    (ops : list Operation) : MainCheckoutService :=
  fold_left perform ops this.

(** The item a repository hands to [scan] for the SKU [s], if it hands one:
    the SKU is not empty, [selectOne] returns, reports no error that lodash
    finds non-empty, and carries data. *)
Definition found `{ErrorObjects} (repository : ItemRepository) (s : string)
    : option Item :=
  if isEmpty_string s then None
  else match selectOne repository s with
       | Returns selectItemOutput =>
           if isEmpty_option error_isEmpty (error selectItemOutput)
           then data selectItemOutput else None
       | Throws _ => None
       end.

(** Where an item of the cart can come from. *)
Definition fromRepository (repository : ItemRepository) (item : Item) : Prop :=
  exists s selectItemOutput,
    selectOne repository s = Returns selectItemOutput
    /\ data selectItemOutput = Some item.

Definition fromPromotion (services : list PromotionService) (item : Item) : Prop :=
  exists promotionService cart added,
    In promotionService services
    /\ apply promotionService cart = Returns added
    /\ In item added.

(** The kinds of calls. *)
Definition isSelectOne (c : Call) : bool :=
  match c with CallSelectOne _ _ => true | _ => false end.

Definition isApply (c : Call) : bool :=
  match c with CallApply _ _ => true | _ => false end.

Definition isConsoleLog (c : Call) : bool :=
  match c with ConsoleLog _ => true | _ => false end.

Definition isConsoleError (c : Call) : bool :=
  match c with ConsoleError _ _ => true | _ => false end.

(** An item the price reducer skips: neither its price nor its discount is
    truthy (absent, [0] or [NaN]). *)
Definition countsForNothing (item : Item) : bool :=
  negb (number_truthy (price item)) && negb (number_truthy (discount item)).

(** Collaborators that fail. *)
Module Failing.
Definition repository : ItemRepository :=
  Build_ItemRepository (fun _ => Throws "repository unreachable").

Definition promotion : PromotionService :=
  Build_PromotionService (fun _ => Throws "promotion failed").

(** A session with the bundle strategy of the tests, then a strategy that
    throws, then the bundle strategy again. *)
Definition checkoutService (store : gmap string Item) : MainCheckoutService :=
  constructor (MockItemRepository.repository ∅)
              [bundlePromotionService; promotion; bundlePromotionService]
              (Some (MockItemRepository.repository store)).
End Failing.

(** A repository that answers every lookup with an error and no data, and
    error objects as [new Error(message)] makes them: [message] and [stack]
    are not enumerable, so lodash finds such an object empty. *)
Module Reporting.
Definition connectionLost : ErrorKind := OtherError "connection lost".

Definition repository : ItemRepository :=
  Build_ItemRepository (fun _ => Returns {| data := None; error := Some connectionLost |}).


Definition checkoutService : MainCheckoutService :=
  constructor (MockItemRepository.repository ∅) [] (Some repository).
End Reporting.

(** * Properties *)

(** ** Numbers *)

Lemma same_value_refl x : same_value x x.
Proof. now left. Qed.

Lemma toString_same_value x y : same_value x y -> toString x = toString y.
Proof.
  intros [-> | [Hx Hy]]; [reflexivity |].
  destruct x; try discriminate; destruct y; try discriminate; reflexivity.
Qed.

Lemma add_same_value a a' m m' :
  same_value a a' -> same_value m m' -> same_value (add a m) (add a' m').
Proof.
  intros [-> | [Ha Ha']] [-> | [Hm Hm']].
  - apply same_value_refl.
  - destruct m as [[] | | |]; try discriminate;
      destruct m' as [[] | | |]; try discriminate;
      destruct a' as [[] | [] | | [] ? ?];
      solve [left; reflexivity | right; split; reflexivity].
  - destruct a as [[] | | |]; try discriminate;
      destruct a' as [[] | | |]; try discriminate;
      destruct m' as [[] | [] | | [] ? ?];
      solve [left; reflexivity | right; split; reflexivity].
  - destruct a as [[] | | |]; try discriminate;
      destruct a' as [[] | | |]; try discriminate;
      destruct m as [[] | | |]; try discriminate;
      destruct m' as [[] | | |]; try discriminate;
      solve [left; reflexivity | right; split; reflexivity].
Qed.

Lemma itemsReducer_modifier acc item :
  itemsReducer acc item = add acc (modifierOf item).
Proof. reflexivity. Qed.

Lemma modifierOf_same_value item :
  pricedInNumbers item = true ->
  same_value (modifierOf item) (sub (priceOr0 item) (discountOr0 item)).
Proof.
  unfold pricedInNumbers, modifierOf, priceOr0, discountOr0.
  destruct item as [s n p d]; cbn [price discount].
  destruct p as [[[] | [] | | [] ? ?] |], d as [[[] | [] | | [] ? ?] |];
    cbn [isNumber is_nan negb andb]; intros Hn; try discriminate Hn;
    solve [left; reflexivity | right; split; reflexivity].
Qed.

Lemma fold_same_value cart : forall a a',
  same_value a a' ->
  Forall (fun item => pricedInNumbers item = true) cart ->
  same_value (fold_left itemsReducer cart a)
             (fold_left (fun acc item => add acc (sub (priceOr0 item) (discountOr0 item)))
                        cart a').
Proof.
  induction cart as [| item cart IH]; intros a a' Ha Hall; [exact Ha |].
  inversion Hall as [| ? ? Hitem Hrest]; subst.
  cbn [fold_left]. apply IH; [| exact Hrest].
  rewrite itemsReducer_modifier.
  apply add_same_value; [exact Ha | now apply modifierOf_same_value].
Qed.

(** ** Strings *)

Lemma join_skus cart : join ", " (map skuOf cart) = String.concat ", " (map sku cart).
Proof.
  assert (Hsku : forall item, default "" (skuOf item) = sku item).
  { intros item. unfold skuOf. destruct (sku item); reflexivity. }
  induction cart as [| item [| item' cart] IH]; [reflexivity | apply Hsku |].
  change (default "" (skuOf item) +:+ ", " +:+ join ", " (map skuOf (item' :: cart))
          = sku item +:+ ", " +:+ String.concat ", " (map sku (item' :: cart))).
  now rewrite IH, Hsku.
Qed.

Lemma report_twoLines cart :
  Forall (fun item => pricedInNumbers item = true) cart ->
  report cart = twoLines cart.
Proof.
  intros Hall. unfold report, twoLines, sumOfPrices.
  rewrite join_skus.
  now rewrite (toString_same_value _ _ (fold_same_value cart _ _ (same_value_refl zero) Hall)).
Qed.

(** ** The promotion loop *)

Lemma promotions_guard (services : list PromotionService) (cart : list Item) :
  (if negb (isEmpty_list services) then applyPromotions services cart
   else (cart, [], None)) = applyPromotions services cart.
Proof. destruct services; reflexivity. Qed.

(** The cart after the loop is the cart before it followed by what the
    services returned. *)
Lemma applyPromotions_returned services : forall cart cart' calls fault,
  applyPromotions services cart = (cart', calls, fault) ->
  cart' = cart ++ returned calls.
Proof.
  induction services as [| p rest IH]; intros cart cart' calls fault Hrun.
  - injection Hrun as <- <- <-. now rewrite app_nil_r.
  - cbn [applyPromotions] in Hrun.
    destruct (apply p cart) as [added | f] eqn:Hp.
    + destruct (applyPromotions rest (cart ++ added)) as [[c k] f] eqn:Hrest.
      injection Hrun as <- <- <-.
      rewrite (IH _ _ _ _ Hrest). cbn. now rewrite app_assoc.
    + injection Hrun as <- <- <-. cbn. now rewrite app_nil_r.
Qed.

Lemma returned_app calls calls' : returned (calls ++ calls') = returned calls ++ returned calls'.
Proof. unfold returned. apply flat_map_app. Qed.

(** The shape of [summary] on a cart that is not empty. *)
Lemma summary_populated this cart calls fault :
  items this <> [] ->
  applyPromotions (promotionServices this) (items this) = (cart, calls, fault) ->
  summary this =
    match fault with
    | Some f =>
        ({| data := None; error := None |}, with_items this cart,
         calls ++ [ConsoleError "Failed calculating total, Error:" (LoggedFault f)])
    | None => ({| data := Some (report cart); error := None |}, with_items this cart, calls)
    end.
Proof.
  intros Hne Hrun. unfold summary.
  destruct (items this) as [| i l] eqn:Hitems; [contradiction |].
  cbn [isEmpty_list]. rewrite promotions_guard, Hrun. reflexivity.
Qed.

Lemma summary_empty this :
  items this = [] ->
  summary this = ({| data := None; error := Some EmptyCartError |}, this, []).
Proof. intros Hempty. unfold summary. now rewrite Hempty. Qed.

Lemma with_items_same this : with_items this (items this) = this.
Proof. now destruct this. Qed.

(** After [summary] the cart is the cart before it followed by what the
    services returned during the call; nothing else of the session changes. *)
Lemma summary_session this :
  session_of (summary this) =
  with_items this (items this ++ returned (calls_of (summary this))).
Proof.
  destruct (items this) as [| i l] eqn:Hitems.
  - rewrite (summary_empty this Hitems). cbn. now rewrite <- Hitems, with_items_same.
  - destruct (applyPromotions (promotionServices this) (items this)) as [[cart calls] fault] eqn:Hrun.
    assert (Hne : items this <> []) by now rewrite Hitems.
    rewrite (summary_populated this _ _ _ Hne Hrun).
    pose proof (applyPromotions_returned _ _ _ _ _ Hrun) as ->.
    rewrite <- Hitems.
    destruct fault; cbn; [| reflexivity].
    rewrite returned_app. cbn. now rewrite app_nil_r.
Qed.

(** ** The bundle promotion *)

Lemma emitGroup_app bundle : forall emitted,
  BundlePromotionService.emitGroup bundle emitted = emitted ++ bundle.
Proof.
  unfold BundlePromotionService.emitGroup.
  induction bundle as [| item bundle IH]; intros emitted; cbn [fold_left].
  - now rewrite app_nil_r.
  - rewrite IH, <- app_assoc. reflexivity.
Qed.

Lemma emitGroups_app bundle groups : forall emitted,
  BundlePromotionService.emitGroups groups bundle emitted
  = emitted ++ concat (repeat bundle groups).
Proof.
  induction groups as [| groups IH]; intros emitted; cbn.
  - now rewrite app_nil_r.
  - rewrite IH, emitGroup_app, <- app_assoc. reflexivity.
Qed.

Lemma countSku_filter ruleSKU cart :
  BundlePromotionService.countSku ruleSKU cart
  = length (List.filter (fun item => String.eqb (sku item) ruleSKU) cart).
Proof.
  unfold BundlePromotionService.countSku.
  assert (H : forall n,
    fold_left (fun count item => if String.eqb (sku item) ruleSKU then S count else count) cart n
    = (n + length (List.filter (fun item => String.eqb (sku item) ruleSKU) cart))%nat).
  { induction cart as [| item cart IH]; intros n; cbn [fold_left List.filter].
    - cbn. lia.
    - rewrite IH. destruct (String.eqb (sku item) ruleSKU); cbn [length]; lia. }
  apply H.
Qed.

Lemma applyRules_from cart rules : forall emitted,
  fold_left (fun out rule =>
               BundlePromotionService.emitGroups
                 (BundlePromotionService.qualifyingGroups rule cart) (bundleItems rule) out)
            rules emitted
  = emitted ++ flat_map (fun rule =>
                 concat (repeat (bundleItems rule)
                                (BundlePromotionService.qualifyingGroups rule cart))) rules.
Proof.
  induction rules as [| rule rules IH]; intros emitted; cbn [fold_left flat_map].
  - now rewrite app_nil_r.
  - rewrite IH, emitGroups_app, <- app_assoc. reflexivity.
Qed.

(** C1. The bundle strategy emits, rule after rule in registration order,
    [floor (count of the rule's SKU in the cart / minimumQuantity)] groups,
    each group being one copy of every bundle item in order.  With the rule
    "two p01 give a free p02", scanning p01 three times and p02 once and
    summarizing appends exactly one free p02: the SKUs are
    p01, p01, p01, p02, p02 and the total is 3.5. *)
Theorem bundle_apply_emits_groups :
  (forall (rules : list PromotionRuleItem) (cart : list Item),
     BundlePromotionService.apply rules cart
     = flat_map (fun rule =>
         concat (repeat (bundleItems rule)
           (Nat.div (length (List.filter (fun item => String.eqb (sku item) (sku (ruleItem rule))) cart))
                    (Pos.to_nat (minimumQuantity rule))))) rules)
  /\ (forall (E : ErrorObjects),
        let this := scanAll (checkoutService store0) ["p01"; "p01"; "p01"; "p02"] in
        items this
          = [promotionRuleItem1; promotionRuleItem1; promotionRuleItem1; promotionRuleItem2]
        /\ summary this
           = ({| data := Some ("SKUs Scanned: p01, p01, p01, p02, p02" +:+ newline
                               +:+ "Total expected: $3.5");
                 error := None |},
              with_items this (items this ++ [freeItem2]),
              [CallApply (items this) (Returns [freeItem2])])
        /\ fold_left itemsReducer (items this ++ [freeItem2]) zero = of_decimal 35 (-1)).
Proof.
  split.
  - intros rules cart. unfold BundlePromotionService.apply.
    rewrite applyRules_from. cbn [app].
    apply flat_map_ext. intros rule.
    unfold BundlePromotionService.qualifyingGroups. now rewrite countSku_filter.
  - intros E. vm_compute. repeat split.
Qed.

(** ** The report of [summary] *)

(** C2. [summary] totals, over the cart after the promotions, price minus
    discount (an absent one counting as 0) and returns the two lines
    "SKUs Scanned: ..." and "Total expected: $..."; scanning t01 (1.99),
    t02 (2.00) and t01 again gives "SKUs Scanned: t01, t02, t01" and
    "Total expected: $5.98". *)
Theorem summary_two_lines :
  (forall (this : MainCheckoutService) (cart : list Item) (calls : list Call),
     items this <> [] ->
     applyPromotions (promotionServices this) (items this) = (cart, calls, None) ->
     Forall (fun item => pricedInNumbers item = true) cart ->
     summary this
     = ({| data := Some (twoLines cart); error := None |}, with_items this cart, calls))
  /\ (forall (E : ErrorObjects),
        let this := scanAll (checkoutService (inserted [t01; t02] store0))
                            ["t01"; "t02"; "t01"; "t03"] in
        items this = [t01; t02; t01]
        /\ output_of (summary this)
           = {| data := Some ("SKUs Scanned: t01, t02, t01" +:+ newline
                              +:+ "Total expected: $5.98");
                error := None |}).
Proof.
  split.
  - intros this cart calls Hne Hrun Hall.
    rewrite (summary_populated this cart calls None Hne Hrun).
    now rewrite (report_twoLines cart Hall).
  - intros E. vm_compute. split; reflexivity.
Qed.

Lemma summary_two_lines_witness :
  let this := @scanAll namedErrors (checkoutService (inserted [t01; t02] store0))
                       ["t01"; "t02"; "t01"] in
  summary this
  = ({| data := Some (twoLines [t01; t02; t01]); error := None |},
     with_items this [t01; t02; t01],
     [CallApply [t01; t02; t01] (Returns [])]).
Proof.
  apply (proj1 summary_two_lines).
  - vm_compute. discriminate.
  - vm_compute. reflexivity.
  - repeat constructor.
Defined.

(** ** Promotions and the session's cart *)

(** C3, as the code has it: the promotions of [summary] are kept in the
    session's cart.  After [summary] the cart is the cart before the call
    followed by the items the strategies returned during the call, and nothing
    else of the session changes; when they returned nothing the session is
    what it was and a second [summary] gives the same result. *)
Theorem summary_keeps_promotions (this : MainCheckoutService) :
  session_of (summary this)
  = with_items this (items this ++ returned (calls_of (summary this)))
  /\ (returned (calls_of (summary this)) = [] ->
      session_of (summary this) = this
      /\ summary (session_of (summary this)) = summary this).
Proof.
  split; [apply summary_session |].
  intros Hnone.
  assert (Hsame : session_of (summary this) = this).
  { rewrite summary_session, Hnone, app_nil_r. apply with_items_same. }
  split; [exact Hsame | now rewrite Hsame].
Qed.

Lemma summary_keeps_promotions_witness :
  let this := @scanAll namedErrors (checkoutService (inserted [t01; t02] store0))
                       ["t01"; "t02"; "t01"] in
  session_of (summary this) = this
  /\ summary (session_of (summary this)) = summary this.
Proof.
  intros this. apply (proj2 (summary_keeps_promotions this)).
  vm_compute. reflexivity.
Defined.

(** C3, as stated, fails: with the rule "two p01 give a free p02", after
    scanning p01 three times and p02 once, [summary] leaves a cart that is not
    the scanned cart, and a second [summary] reports one more p02. *)
Lemma summary_keeps_promotions_counterexample :
  let this := @scanAll namedErrors (checkoutService store0) ["p01"; "p01"; "p01"; "p02"] in
  let first := summary this in
  let second := summary (session_of first) in
  items (session_of first) <> items this
  /\ output_of second <> output_of first
  /\ map sku (items (session_of second)) = ["p01"; "p01"; "p01"; "p02"; "p02"; "p02"].
Proof.
  vm_compute. repeat split; discriminate.
Qed.

(** ** The calls of the promotion loop *)

Section PromotionCalls.
Implicit Types (services : list PromotionService) (cart : list Item)
               (calls : list Call) (fault : option string).

(** The [i]-th call of the loop is [apply] of the [i]-th service. *)
Lemma calls_in_order services : forall cart cart' calls fault,
  applyPromotions services cart = (cart', calls, fault) ->
  forall i c r, calls !! i = Some (CallApply c r) ->
  exists p, services !! i = Some p /\ r = apply p c.
Proof.
  induction services as [| p rest IH]; intros cart cart' calls fault Hrun i c r Hi.
  - injection Hrun as <- <- <-. discriminate.
  - cbn [applyPromotions] in Hrun.
    destruct (apply p cart) as [added | f] eqn:Hp.
    + destruct (applyPromotions rest (cart ++ added)) as [[c0 k] f] eqn:Hrest.
      injection Hrun as <- <- <-.
      destruct i as [| i]; cbn in Hi.
      * injection Hi as <- <-. exists p. now rewrite Hp.
      * destruct (IH _ _ _ _ Hrest i c r Hi) as [q Hq]. now exists q.
    + injection Hrun as <- <- <-.
      destruct i as [| i]; cbn in Hi; [| discriminate].
      injection Hi as <- <-. exists p. now rewrite Hp.
Qed.

(** Every call receives the cart the loop started with, and more. *)
Lemma calls_extend_cart services : forall cart cart' calls fault,
  applyPromotions services cart = (cart', calls, fault) ->
  forall i c r, calls !! i = Some (CallApply c r) ->
  exists more, c = cart ++ more.
Proof.
  induction services as [| p rest IH]; intros cart cart' calls fault Hrun i c r Hi.
  - injection Hrun as <- <- <-. discriminate.
  - cbn [applyPromotions] in Hrun.
    destruct (apply p cart) as [added | f] eqn:Hp.
    + destruct (applyPromotions rest (cart ++ added)) as [[c0 k] f] eqn:Hrest.
      injection Hrun as <- <- <-.
      destruct i as [| i]; cbn in Hi.
      * injection Hi as <- <-. exists []. now rewrite app_nil_r.
      * destruct (IH _ _ _ _ Hrest i c r Hi) as [more ->].
        exists (added ++ more). now rewrite app_assoc.
    + injection Hrun as <- <- <-.
      destruct i as [| i]; cbn in Hi; [| discriminate].
      injection Hi as <- <-. exists []. now rewrite app_nil_r.
Qed.

Lemma first_call_cart services cart cart' calls fault :
  applyPromotions services cart = (cart', calls, fault) ->
  forall c r, calls !! 0%nat = Some (CallApply c r) -> c = cart.
Proof.
  intros Hrun c r H0. destruct services as [| p rest].
  - injection Hrun as <- <- <-. discriminate.
  - cbn [applyPromotions] in Hrun.
    destruct (apply p cart) as [added | f].
    + destruct (applyPromotions rest (cart ++ added)) as [[c0 k] f].
      injection Hrun as <- <- <-. cbn in H0. now injection H0 as <- <-.
    + injection Hrun as <- <- <-. cbn in H0. now injection H0 as <- <-.
Qed.

(** A later call receives the cart of an earlier one, the items that one
    returned, and more. *)
Lemma later_call_cart services : forall cart cart' calls fault,
  applyPromotions services cart = (cart', calls, fault) ->
  forall i j c added c' r', (i < j)%nat ->
  calls !! i = Some (CallApply c (Returns added)) ->
  calls !! j = Some (CallApply c' r') ->
  exists more, c' = c ++ added ++ more.
Proof.
  induction services as [| p rest IH];
    intros cart cart' calls fault Hrun i j c added c' r' Hlt Hi Hj.
  - injection Hrun as <- <- <-. discriminate.
  - cbn [applyPromotions] in Hrun.
    destruct (apply p cart) as [added0 | f] eqn:Hp.
    + destruct (applyPromotions rest (cart ++ added0)) as [[c0 k] f] eqn:Hrest.
      injection Hrun as <- <- <-.
      destruct j as [| j]; [lia |]. cbn in Hj.
      destruct i as [| i]; cbn in Hi.
      * injection Hi as <- <-.
        destruct (calls_extend_cart _ _ _ _ _ Hrest j c' r' Hj) as [more ->].
        exists more. now rewrite app_assoc.
      * apply (IH _ _ _ _ Hrest i j c added c' r'); [lia | exact Hi | exact Hj].
    + injection Hrun as <- <- <-.
      destruct j as [| j]; [lia |]. discriminate.
Qed.

(** The next call receives exactly the previous cart and what was returned. *)
Lemma next_call_cart services : forall cart cart' calls fault,
  applyPromotions services cart = (cart', calls, fault) ->
  forall i c added c' r',
  calls !! i = Some (CallApply c (Returns added)) ->
  calls !! S i = Some (CallApply c' r') ->
  c' = c ++ added.
Proof.
  induction services as [| p rest IH];
    intros cart cart' calls fault Hrun i c added c' r' Hi Hj.
  - injection Hrun as <- <- <-. discriminate.
  - cbn [applyPromotions] in Hrun.
    destruct (apply p cart) as [added0 | f] eqn:Hp.
    + destruct (applyPromotions rest (cart ++ added0)) as [[c0 k] f] eqn:Hrest.
      injection Hrun as <- <- <-. cbn in Hj.
      destruct i as [| i]; cbn in Hi.
      * injection Hi as <- <-.
        exact (first_call_cart _ _ _ _ _ Hrest c' r' Hj).
      * exact (IH _ _ _ _ Hrest i c added c' r' Hi Hj).
    + injection Hrun as <- <- <-. discriminate.
Qed.

(** A service is called as soon as the ones before it have returned. *)
Lemma service_called services : forall cart cart' calls fault,
  applyPromotions services cart = (cart', calls, fault) ->
  forall j p, services !! j = Some p ->
  (forall i, (i < j)%nat -> exists c added, calls !! i = Some (CallApply c (Returns added))) ->
  exists c, calls !! j = Some (CallApply c (apply p c)).
Proof.
  induction services as [| q rest IH]; intros cart cart' calls fault Hrun j p Hj Hbefore.
  - discriminate.
  - cbn [applyPromotions] in Hrun.
    destruct (apply q cart) as [added | f] eqn:Hq.
    + destruct (applyPromotions rest (cart ++ added)) as [[c0 k] f] eqn:Hrest.
      injection Hrun as <- <- <-.
      destruct j as [| j]; cbn in Hj.
      * injection Hj as <-. exists cart. cbn. now rewrite Hq.
      * apply (IH _ _ _ _ Hrest j p Hj).
        intros i Hi. apply (Hbefore (S i)). lia.
    + injection Hrun as <- <- <-.
      destruct j as [| j]; cbn in Hj.
      * injection Hj as <-. exists cart. cbn. now rewrite Hq.
      * destruct (Hbefore 0%nat ltac:(lia)) as (c & added & H0).
        cbn in H0. discriminate.
Qed.

(** The calls of [summary] that are calls of [apply] are those of the loop. *)
Lemma summary_apply_calls this cart calls fault :
  items this <> [] ->
  applyPromotions (promotionServices this) (items this) = (cart, calls, fault) ->
  forall i c r,
    calls_of (summary this) !! i = Some (CallApply c r) <-> calls !! i = Some (CallApply c r).
Proof.
  intros Hne Hrun i c r.
  rewrite (summary_populated this cart calls fault Hne Hrun).
  destruct fault as [f |]; cbn [calls_of snd]; [| reflexivity].
  split; intros H.
  - destruct (decide (i < length calls)%nat) as [Hlt | Hge].
    + now rewrite lookup_app_l in H.
    + rewrite lookup_app_r in H by lia.
      destruct (i - length calls)%nat; [discriminate | destruct n; discriminate].
  - now apply lookup_app_l_Some.
Qed.
End PromotionCalls.

(** C4. Within one [summary] the strategies are called in registration
    order, each on the cart that already holds what the earlier ones returned:
    the first call receives the session's cart, every next call receives the
    previous cart followed by the items the previous strategy returned, so a
    later call's cart contains the items of every earlier call. *)
Theorem promotions_see_earlier_results (this : MainCheckoutService) :
  items this <> [] ->
  let calls := calls_of (summary this) in
  (forall i cart result,
     calls !! i = Some (CallApply cart result) ->
     exists p, promotionServices this !! i = Some p /\ result = apply p cart)
  /\ (forall j p,
        promotionServices this !! j = Some p ->
        (forall i, (i < j)%nat ->
           exists cart added, calls !! i = Some (CallApply cart (Returns added))) ->
        exists cart, calls !! j = Some (CallApply cart (apply p cart)))
  /\ (forall cart result,
        calls !! 0%nat = Some (CallApply cart result) -> cart = items this)
  /\ (forall i cart added cart' result',
        calls !! i = Some (CallApply cart (Returns added)) ->
        calls !! S i = Some (CallApply cart' result') ->
        cart' = cart ++ added)
  /\ (forall i j cart added cart' result',
        (i < j)%nat ->
        calls !! i = Some (CallApply cart (Returns added)) ->
        calls !! j = Some (CallApply cart' result') ->
        exists more, cart' = cart ++ added ++ more).
Proof.
  intros Hne calls.
  destruct (applyPromotions (promotionServices this) (items this)) as [[cart0 calls0] fault] eqn:Hrun.
  pose proof (summary_apply_calls this cart0 calls0 fault Hne Hrun) as Hiff.
  fold calls in Hiff.
  repeat split.
  - intros i cart result Hi. apply Hiff in Hi.
    exact (calls_in_order _ _ _ _ _ Hrun i cart result Hi).
  - intros j p Hj Hbefore.
    destruct (service_called _ _ _ _ _ Hrun j p Hj) as [c Hc].
    + intros i Hi. destruct (Hbefore i Hi) as (c & added & H).
      exists c, added. now apply Hiff.
    + exists c. now apply Hiff.
  - intros cart result H0. apply Hiff in H0.
    exact (first_call_cart _ _ _ _ _ Hrun cart result H0).
  - intros i cart added cart' result' Hi Hj. apply Hiff in Hi, Hj.
    exact (next_call_cart _ _ _ _ _ Hrun i cart added cart' result' Hi Hj).
  - intros i j cart added cart' result' Hlt Hi Hj. apply Hiff in Hi, Hj.
    exact (later_call_cart _ _ _ _ _ Hrun i j cart added cart' result' Hlt Hi Hj).
Qed.

Lemma promotions_see_earlier_results_witness :
  let this := @scanAll namedErrors (twoStrategies store0) ["p01"; "p01"; "p02"] in
  calls_of (summary this)
  = [CallApply [promotionRuleItem1; promotionRuleItem1; promotionRuleItem2]
               (Returns [freeItem2]);
     CallApply [promotionRuleItem1; promotionRuleItem1; promotionRuleItem2; freeItem2]
               (Returns [p03])]
  /\ forall cart result,
       calls_of (summary this) !! 1%nat = Some (CallApply cart result) ->
       exists more,
         cart = [promotionRuleItem1; promotionRuleItem1; promotionRuleItem2]
                ++ [freeItem2] ++ more.
Proof.
  intros this. split; [vm_compute; reflexivity |].
  intros cart result H1.
  assert (Hne : items this <> []) by (vm_compute; discriminate).
  apply (proj2 (proj2 (proj2 (proj2 (promotions_see_earlier_results this Hne))))
           0%nat 1%nat _ _ cart result); [lia | vm_compute; reflexivity | exact H1].
Defined.

(** ** The empty cart *)

(** C5. On an empty cart [summary] answers [EmptyCartError] without data,
    whatever promotion strategies are registered: none of them is called, and
    the session stays as it is, in the state [Empty]. *)
Theorem summary_empty_cart (repository : ItemRepository)
    (services : list PromotionService) :
  let this := {| items := []; itemRepository := repository;
                 promotionServices := services |} in
  summary this = ({| data := None; error := Some EmptyCartError |}, this, [])
  /\ state_of this = Empty
  /\ state_of (session_of (summary this)) = Empty.
Proof. repeat split. Qed.

(** ** [scan] *)

(** C6. [scan] of the empty string, of [null] and of [undefined] answers
    [data = false] with [InvalidInputError]; the repository is not called and
    the session is unchanged. *)
Theorem scan_invalid_input (E : ErrorObjects) (this : MainCheckoutService) :
  let invalid := ({| data := Some false; error := Some InvalidInputError |}, this, []) in
  scan this (Str "") = invalid
  /\ scan this Null = invalid
  /\ scan this Undefined = invalid.
Proof. repeat split. Qed.

Lemma sku_truthy_nonempty (s : string) : s <> "" -> sku_truthy (Str s) = Some s.
Proof. intros Hs. destruct s; [contradiction | reflexivity]. Qed.




(** C10. [scan] changes the session only when it succeeds: whenever it
    answers [data = false] (invalid input, an error of the repository, a
    throwing repository or an unknown SKU) the session, and so the cart, is
    what it was; when it answers [data = true] one item was pushed. *)
Theorem scan_atomic_on_error (E : ErrorObjects) (this : MainCheckoutService)
    (itemSKU : SkuArg) :
  (data (output_of (scan this itemSKU)) = Some false ->
   session_of (scan this itemSKU) = this
   /\ items (session_of (scan this itemSKU)) = items this)
  /\ (data (output_of (scan this itemSKU)) = Some true ->
      exists item, items (session_of (scan this itemSKU)) = items this ++ [item])
  /\ (data (output_of (scan this itemSKU)) = Some false
      \/ data (output_of (scan this itemSKU)) = Some true).
Proof.
  unfold scan.
  destruct (sku_truthy itemSKU) as [s |]; [| cbn; intuition discriminate].
  destruct (selectOne (itemRepository this) s) as [o | f]; [| cbn; intuition discriminate].
  destruct (negb (isEmpty_option error_isEmpty (error o))); [cbn; intuition discriminate |].
  destruct (data o) as [item |]; [| cbn; intuition discriminate].
  cbn. repeat split; try discriminate; eauto.
Qed.

Lemma scan_atomic_on_error_witness :
  let this := @scanAll namedErrors (checkoutService (inserted [t01; t02] store0))
                       ["t01"; "t02"; "t01"] in
  session_of (@scan namedErrors this (Str "t03")) = this
  /\ items (session_of (@scan namedErrors this (Str "t03"))) = items this.
Proof.
  intros this.
  apply (proj1 (scan_atomic_on_error namedErrors this (Str "t03"))).
  vm_compute. reflexivity.
Defined.

(** ** [summary] and the cart *)

(** C8. On a cart that is not empty [summary] only grows the cart: the cart
    before the call is a prefix of the cart after it, every item keeps its
    position, and the session stays [Populated]. *)
Theorem summary_only_grows (this : MainCheckoutService) :
  items this <> [] ->
  (exists added, items (session_of (summary this)) = items this ++ added)
  /\ (forall i item,
        items this !! i = Some item ->
        items (session_of (summary this)) !! i = Some item)
  /\ state_of this = Populated
  /\ state_of (session_of (summary this)) = Populated.
Proof.
  intros Hne.
  assert (Hcart : items (session_of (summary this))
                  = items this ++ returned (calls_of (summary this))).
  { now rewrite summary_session at 1. }
  split; [eexists; exact Hcart |].
  split; [intros i item Hi; rewrite Hcart; now apply lookup_app_l_Some |].
  unfold state_of. rewrite Hcart.
  destruct (items this); [contradiction | split; reflexivity].
Qed.

Lemma summary_only_grows_witness :
  let this := @scanAll namedErrors (checkoutService store0) ["p01"; "p01"; "p01"; "p02"] in
  (exists added, items (session_of (summary this)) = items this ++ added)
  /\ (forall i item,
        items this !! i = Some item ->
        items (session_of (summary this)) !! i = Some item)
  /\ state_of this = Populated
  /\ state_of (session_of (summary this)) = Populated.
Proof.
  intros this. apply (summary_only_grows this).
  vm_compute. discriminate.
Defined.

(** ** [clear] *)

(** C9. [clear] empties the cart and answers [data = true]; called again it
    answers the same and leaves the same session: the cart is empty after
    either call, and neither call logs a failure. *)
Theorem clear_idempotent (this : MainCheckoutService) :
  clear this = ({| data := Some true; error := None |}, with_items this [], [])
  /\ items (session_of (clear this)) = []
  /\ state_of (session_of (clear this)) = Empty
  /\ clear (session_of (clear this)) = clear this
  /\ items (session_of (clear (session_of (clear this)))) = [].
Proof. repeat split. Qed.

(** * Further properties of the service *)

(** ** What [scan] returns and does *)

Lemma scan_session (E : ErrorObjects) (this : MainCheckoutService) (s : string) :
  session_of (scan this (Str s))
  = match found (itemRepository this) s with
    | Some item => with_items this (items this ++ [item])
    | None => this
    end.
Proof.
  unfold scan, found, sku_truthy.
  destruct (isEmpty_string s); [reflexivity |].
  destruct (selectOne (itemRepository this) s) as [o | f]; [| reflexivity].
  destruct (isEmpty_option error_isEmpty (error o)); [| reflexivity].
  destruct (data o); reflexivity.
Qed.

(** X1. The envelope [scan] returns is consistent, and [scan] stays within
    its collaborator: an error is only ever returned together with
    [data = false], [data = true] comes without error, the repository is
    looked up at most once, and no promotion strategy is called and nothing
    is printed. *)
Theorem scan_output_consistent (E : ErrorObjects) (this : MainCheckoutService)
    (itemSKU : SkuArg) :
  (forall e, error (output_of (scan this itemSKU)) = Some e ->
             data (output_of (scan this itemSKU)) = Some false)
  /\ (data (output_of (scan this itemSKU)) = Some true ->
      error (output_of (scan this itemSKU)) = None)
  /\ (length (List.filter isSelectOne (calls_of (scan this itemSKU))) <= 1)%nat
  /\ List.filter isApply (calls_of (scan this itemSKU)) = []
  /\ List.filter isConsoleLog (calls_of (scan this itemSKU)) = [].
Proof.
  unfold scan.
  destruct (sku_truthy itemSKU) as [s |];
    [| cbn; repeat split; solve [discriminate | lia | reflexivity | auto]].
  destruct (selectOne (itemRepository this) s) as [o | f];
    [| cbn; repeat split; solve [discriminate | lia | reflexivity | auto]].
  destruct (negb (isEmpty_option error_isEmpty (error o)));
    [cbn; repeat split; solve [discriminate | lia | reflexivity | auto] |].
  destruct (data o) as [item |];
    cbn; repeat split; solve [discriminate | lia | reflexivity | auto].
Qed.

Lemma scan_output_consistent_witness :
  data (output_of (@scan namedErrors (checkoutService store0) (Str "t03"))) = Some false.
Proof.
  apply (proj1 (scan_output_consistent namedErrors (checkoutService store0) (Str "t03"))
           ItemNotFoundError).
  vm_compute. reflexivity.
Defined.

(** X2. [scan] succeeds exactly when the SKU is a non-empty string for which
    the repository returns an item and no error that lodash finds non-empty;
    the item is then the last one of the cart, and the cart is populated. *)
Theorem scan_succeeds_iff (E : ErrorObjects) (this : MainCheckoutService)
    (itemSKU : SkuArg) :
  (data (output_of (scan this itemSKU)) = Some true
   <-> exists s selectItemOutput item,
         itemSKU = Str s /\ s <> ""
         /\ selectOne (itemRepository this) s = Returns selectItemOutput
         /\ isEmpty_option error_isEmpty (error selectItemOutput) = true
         /\ data selectItemOutput = Some item)
  /\ (forall s selectItemOutput item,
        itemSKU = Str s -> s <> "" ->
        selectOne (itemRepository this) s = Returns selectItemOutput ->
        isEmpty_option error_isEmpty (error selectItemOutput) = true ->
        data selectItemOutput = Some item ->
        scan this itemSKU
        = ({| data := Some true; error := None |},
           with_items this (items this ++ [item]),
           [CallSelectOne s (Returns selectItemOutput)])
        /\ state_of (session_of (scan this itemSKU)) = Populated).
Proof.
  assert (Hok : forall s selectItemOutput item,
            itemSKU = Str s -> s <> "" ->
            selectOne (itemRepository this) s = Returns selectItemOutput ->
            isEmpty_option error_isEmpty (error selectItemOutput) = true ->
            data selectItemOutput = Some item ->
            scan this itemSKU
            = ({| data := Some true; error := None |},
               with_items this (items this ++ [item]),
               [CallSelectOne s (Returns selectItemOutput)])).
  { intros s o item -> Hs Ho Herr Hdata. unfold scan.
    rewrite (sku_truthy_nonempty s Hs), Ho, Herr, Hdata. reflexivity. }
  split; [split |].
  - intros Htrue. unfold scan in Htrue.
    destruct itemSKU as [| | s]; try discriminate Htrue.
    destruct s as [| a s]; [discriminate Htrue |].
    cbn [sku_truthy isEmpty_string] in Htrue.
    destruct (selectOne (itemRepository this) (String a s)) as [o | f] eqn:Ho;
      [| discriminate Htrue].
    destruct (isEmpty_option error_isEmpty (error o)) eqn:Herr;
      [| discriminate Htrue].
    destruct (data o) as [item |] eqn:Hdata; [| discriminate Htrue].
    exists (String a s), o, item. repeat split; try assumption. discriminate.
  - intros (s & o & item & Harg & Hs & Ho & Herr & Hdata).
    now rewrite (Hok s o item Harg Hs Ho Herr Hdata).
  - intros s o item Harg Hs Ho Herr Hdata.
    rewrite (Hok s o item Harg Hs Ho Herr Hdata). split; [reflexivity |].
    unfold state_of, session_of. cbn. now destruct (items this).
Qed.

Lemma scan_succeeds_iff_witness :
  @scan namedErrors (checkoutService store0) (Str "p01")
  = ({| data := Some true; error := None |},
     with_items (checkoutService store0) [promotionRuleItem1],
     [CallSelectOne "p01" (Returns {| data := Some promotionRuleItem1; error := None |})])
  /\ state_of (session_of (@scan namedErrors (checkoutService store0) (Str "p01")))
     = Populated.
Proof.
  apply (proj2 (scan_succeeds_iff namedErrors (checkoutService store0) (Str "p01"))
           "p01" {| data := Some promotionRuleItem1; error := None |} promotionRuleItem1);
    solve [reflexivity | discriminate | vm_compute; reflexivity].
Defined.

Lemma scan_keeps_repository (E : ErrorObjects) (this : MainCheckoutService)
    (itemSKU : SkuArg) :
  itemRepository (session_of (scan this itemSKU)) = itemRepository this
  /\ promotionServices (session_of (scan this itemSKU)) = promotionServices this.
Proof.
  destruct itemSKU as [| | s]; try (split; reflexivity).
  rewrite scan_session. destruct (found (itemRepository this) s); split; reflexivity.
Qed.

(** X3. The cart is in scan order: scanning a list of SKUs one after the
    other pushes, in that order, the items the repository hands over, and
    skips every SKU for which it hands over none (empty SKU, error, throw,
    no data). *)
Theorem scanAll_in_order (E : ErrorObjects) (skus : list string) :
  forall this : MainCheckoutService,
    scanAll this skus
    = with_items this (items this ++ omap (found (itemRepository this)) skus).
Proof.
  induction skus as [| s skus IH]; intros this.
  - cbn. now rewrite app_nil_r, with_items_same.
  - change (scanAll this (s :: skus)) with (scanAll (session_of (scan this (Str s))) skus).
    rewrite IH.
    rewrite (proj1 (scan_keeps_repository E this (Str s))).
    rewrite scan_session.
    destruct (found (itemRepository this) s) as [item |] eqn:Hfound;
      cbn; rewrite Hfound.
    + unfold with_items. cbn. now rewrite <- app_assoc.
    + reflexivity.
Qed.

(** ** [summary] when a promotion strategy throws *)

Lemma applyPromotions_app pre : forall cart cart' calls rest,
  applyPromotions pre cart = (cart', calls, None) ->
  applyPromotions (pre ++ rest) cart
  = (fst (fst (applyPromotions rest cart')),
     calls ++ snd (fst (applyPromotions rest cart')),
     snd (applyPromotions rest cart')).
Proof.
  induction pre as [| p pre IH]; intros cart cart' calls rest Hrun.
  - injection Hrun as <- <-. cbn [app]. now destruct (applyPromotions rest cart) as [[? ?] ?].
  - cbn [applyPromotions app] in *.
    destruct (apply p cart) as [added | f]; [| discriminate Hrun].
    destruct (applyPromotions pre (cart ++ added)) as [[c k] f] eqn:Hpre.
    injection Hrun as <- <- ->.
    rewrite (IH _ _ _ rest Hpre). reflexivity.
Qed.

Lemma applyPromotions_length services : forall cart cart' calls,
  applyPromotions services cart = (cart', calls, None) ->
  length calls = length services.
Proof.
  induction services as [| p rest IH]; intros cart cart' calls Hrun.
  - now injection Hrun as <- <-.
  - cbn [applyPromotions] in Hrun.
    destruct (apply p cart) as [added | f]; [| discriminate Hrun].
    destruct (applyPromotions rest (cart ++ added)) as [[c k] f] eqn:Hrest.
    injection Hrun as <- <- ->. cbn [length]. now rewrite (IH _ _ _ Hrest).
Qed.

(** X4. When a strategy throws, [summary] returns an output with neither
    data nor error; the items the strategies registered before it returned
    stay in the session's cart, the strategies registered after it are not
    called, and the fault is logged. *)
Theorem summary_strategy_throws (this : MainCheckoutService)
    (pre post : list PromotionService) (p : PromotionService)
    (cart : list Item) (calls : list Call) (fault : string) :
  items this <> [] ->
  promotionServices this = pre ++ p :: post ->
  applyPromotions pre (items this) = (cart, calls, None) ->
  apply p cart = Throws fault ->
  summary this
  = ({| data := None; error := None |}, with_items this cart,
     calls ++ [CallApply cart (Throws fault);
               ConsoleError "Failed calculating total, Error:" (LoggedFault fault)])
  /\ cart = items this ++ returned calls
  /\ length calls = length pre.
Proof.
  intros Hne Hservices Hpre Hthrow.
  assert (Hrun : applyPromotions (promotionServices this) (items this)
                 = (cart, calls ++ [CallApply cart (Throws fault)], Some fault)).
  { rewrite Hservices, (applyPromotions_app pre _ _ _ (p :: post) Hpre).
    cbn [applyPromotions]. rewrite Hthrow. reflexivity. }
  split; [| split].
  - rewrite (summary_populated this _ _ _ Hne Hrun). now rewrite <- app_assoc.
  - exact (applyPromotions_returned _ _ _ _ _ Hpre).
  - exact (applyPromotions_length _ _ _ _ Hpre).
Qed.

Lemma summary_strategy_throws_witness :
  let this := @scanAll namedErrors (Failing.checkoutService store0) ["p01"; "p01"] in
  summary this
  = ({| data := None; error := None |},
     with_items this [promotionRuleItem1; promotionRuleItem1; freeItem2],
     [CallApply [promotionRuleItem1; promotionRuleItem1] (Returns [freeItem2])]
     ++ [CallApply [promotionRuleItem1; promotionRuleItem1; freeItem2]
                   (Throws "promotion failed");
         ConsoleError "Failed calculating total, Error:" (LoggedFault "promotion failed")])
  /\ [promotionRuleItem1; promotionRuleItem1; freeItem2]
     = items this
       ++ returned [CallApply [promotionRuleItem1; promotionRuleItem1] (Returns [freeItem2])]
  /\ length [CallApply [promotionRuleItem1; promotionRuleItem1] (Returns [freeItem2])]
     = length [bundlePromotionService].
Proof.
  intros this.
  apply (summary_strategy_throws this [bundlePromotionService] [bundlePromotionService]
           Failing.promotion).
  - vm_compute. discriminate.
  - reflexivity.
  - vm_compute. reflexivity.
  - reflexivity.
Defined.

(** ** The outcomes of [summary] *)

Lemma cart_empty_or_not (this : MainCheckoutService) :
  items this = [] \/ items this <> [].
Proof. destruct (items this); [now left | now right]. Qed.

Lemma applyPromotions_only_apply services : forall cart cart' calls fault,
  applyPromotions services cart = (cart', calls, fault) ->
  List.filter isSelectOne calls = [] /\ List.filter isConsoleLog calls = []
  /\ List.filter isConsoleError calls = [].
Proof.
  induction services as [| p rest IH]; intros cart cart' calls fault Hrun.
  - injection Hrun as <- <- <-. repeat split.
  - cbn [applyPromotions] in Hrun.
    destruct (apply p cart) as [added | f].
    + destruct (applyPromotions rest (cart ++ added)) as [[c k] f] eqn:Hrest.
      injection Hrun as <- <- <-. cbn. exact (IH _ _ _ _ Hrest).
    + injection Hrun as <- <- <-. repeat split.
Qed.

(** X5. [summary] reports an error exactly when the cart is empty, and the
    error is then [EmptyCartError]; it returns data exactly when the cart is
    not empty and no strategy throws, and the data is then the report of the
    cart after the promotions.  It never looks up the repository and never
    prints. *)
Theorem summary_outcome (this : MainCheckoutService) :
  (forall e, error (output_of (summary this)) = Some e
             <-> e = EmptyCartError /\ items this = [])
  /\ (forall r, data (output_of (summary this)) = Some r
                <-> items this <> []
                    /\ exists cart calls,
                         applyPromotions (promotionServices this) (items this)
                         = (cart, calls, None)
                         /\ r = report cart)
  /\ List.filter isSelectOne (calls_of (summary this)) = []
  /\ List.filter isConsoleLog (calls_of (summary this)) = [].
Proof.
  destruct (cart_empty_or_not this) as [Hempty | Hne].
  - rewrite (summary_empty this Hempty). cbn.
    split; [| split; [| split; reflexivity]].
    + intros e. split.
      * intros He. injection He as <-. now split.
      * intros [-> _]. reflexivity.
    + intros r. split; [discriminate |].
      intros [Hne _]. contradiction.
  - destruct (applyPromotions (promotionServices this) (items this))
      as [[cart calls] fault] eqn:Hrun.
    rewrite (summary_populated this _ _ _ Hne Hrun).
    destruct (applyPromotions_only_apply _ _ _ _ _ Hrun) as (Hs & Hl & _).
    destruct fault as [f |]; cbn.
    + split; [| split; [| split]].
      * intros e. split; [discriminate |]. intros [_ Hempty]. contradiction.
      * intros r. split; [discriminate |].
        intros (_ & c & k & Hck & _). discriminate Hck.
      * rewrite List.filter_app, Hs. reflexivity.
      * rewrite List.filter_app, Hl. reflexivity.
    + split; [| split; [| split; assumption]].
      * intros e. split; [discriminate |]. intros [_ Hempty]. contradiction.
      * intros r. split.
        -- intros Hr. injection Hr as <-. split; [exact Hne |].
           exists cart, calls. now split.
        -- intros (_ & c & k & Hck & ->). now injection Hck as <- <-.
Qed.

Lemma summary_outcome_witness :
  EmptyCartError = EmptyCartError /\ items (checkoutService store0) = [].
Proof.
  apply (proj1 (proj1 (summary_outcome (checkoutService store0)) EmptyCartError)).
  vm_compute. reflexivity.
Defined.

(** ** [total] *)

Lemma report_not_empty cart : isEmpty_string (report cart) = false.
Proof. reflexivity. Qed.

(** X6. [total] leaves the session as [summary] leaves it and prints exactly
    once, after the calls of [summary]: the report when [summary] returned
    one, with no failure logged; otherwise it logs
    "Failed totaling checkout, Error:" with the error of [summary] (absent
    when a strategy threw) and prints [undefined]. *)
Theorem total_prints_summary (this : MainCheckoutService) :
  total this
  = (session_of (summary this),
     calls_of (summary this)
     ++ match data (output_of (summary this)) with
        | Some r => [ConsoleLog (Some r)]
        | None =>
            [ConsoleError "Failed totaling checkout, Error:"
               (LoggedError (error (output_of (summary this))));
             ConsoleLog None]
        end).
Proof.
  unfold total.
  destruct (cart_empty_or_not this) as [Hempty | Hne].
  - rewrite (summary_empty this Hempty). reflexivity.
  - destruct (applyPromotions (promotionServices this) (items this))
      as [[cart calls] fault] eqn:Hrun.
    rewrite (summary_populated this _ _ _ Hne Hrun).
    destruct fault as [f |]; [reflexivity |].
    cbn [data error output_of session_of calls_of fst snd isEmpty_option].
    rewrite report_not_empty. reflexivity.
Qed.

(** ** Items that count for nothing *)

Lemma same_value_trans x y z : same_value x y -> same_value y z -> same_value x z.
Proof.
  intros [-> | [Hx Hy]] [-> | [Hy' Hz]];
    [now left | now right | now right | right; now split].
Qed.

Lemma add_zero_same_value acc : same_value (add acc zero) acc.
Proof.
  destruct acc as [[] | [] | | [] ? ?];
    solve [left; reflexivity | right; split; reflexivity].
Qed.

Lemma itemsReducer_nothing acc item :
  countsForNothing item = true -> itemsReducer acc item = add acc zero.
Proof.
  unfold countsForNothing, itemsReducer. intros Hnothing.
  apply andb_prop in Hnothing as [Hp Hd].
  apply negb_true_iff in Hp, Hd. now rewrite Hp, Hd.
Qed.

Lemma fold_nothing free : forall acc acc',
  same_value acc acc' ->
  Forall (fun item => countsForNothing item = true) free ->
  same_value (fold_left itemsReducer free acc) acc'.
Proof.
  induction free as [| item free IH]; intros acc acc' Hacc Hall; [exact Hacc |].
  inversion Hall as [| ? ? Hitem Hrest]; subst. cbn [fold_left].
  apply IH; [| exact Hrest].
  rewrite (itemsReducer_nothing acc item Hitem).
  exact (same_value_trans _ _ _ (add_zero_same_value acc) Hacc).
Qed.

(** X7. Items whose price and discount are both falsy (absent, [0] or
    [NaN]), such as the free items of a bundle, do not change the total that
    is printed: appended to a cart they only lengthen the list of SKUs. *)
Theorem free_items_keep_total (cart free : list Item) :
  Forall (fun item => countsForNothing item = true) free ->
  toString (fold_left itemsReducer (cart ++ free) zero)
  = toString (fold_left itemsReducer cart zero)
  /\ report (cart ++ free)
     = "SKUs Scanned: " +:+ join ", " (map skuOf (cart ++ free)) +:+ newline
       +:+ "Total expected: $" +:+ toString (fold_left itemsReducer cart zero).
Proof.
  intros Hfree.
  assert (Htotal : toString (fold_left itemsReducer (cart ++ free) zero)
                   = toString (fold_left itemsReducer cart zero)).
  { rewrite fold_left_app. apply toString_same_value.
    apply fold_nothing; [apply same_value_refl | exact Hfree]. }
  split; [exact Htotal |].
  unfold report. now rewrite Htotal.
Qed.

Lemma free_items_keep_total_witness :
  let cart := [promotionRuleItem1; promotionRuleItem1; promotionRuleItem1;
               promotionRuleItem2] in
  toString (fold_left itemsReducer (cart ++ [freeItem2; freeItem2]) zero)
  = toString (fold_left itemsReducer cart zero)
  /\ report (cart ++ [freeItem2; freeItem2])
     = "SKUs Scanned: " +:+ join ", " (map skuOf (cart ++ [freeItem2; freeItem2]))
       +:+ newline
       +:+ "Total expected: $" +:+ toString (fold_left itemsReducer cart zero).
Proof.
  intros cart. apply (free_items_keep_total cart [freeItem2; freeItem2]).
  repeat constructor.
Defined.

(** ** Any sequence of operations *)

Lemma total_session (this : MainCheckoutService) :
  fst (total this) = session_of (summary this).
Proof.
  unfold total. now destruct (summary this) as [[out s] calls].
Qed.

Lemma perform_keeps (E : ErrorObjects) (this : MainCheckoutService) (op : Operation) :
  itemRepository (perform this op) = itemRepository this
  /\ promotionServices (perform this op) = promotionServices this.
Proof.
  destruct op as [| itemSKU | |]; cbn [perform].
  - split; reflexivity.
  - apply scan_keeps_repository.
  - rewrite summary_session. split; reflexivity.
  - rewrite total_session, summary_session. split; reflexivity.
Qed.

Lemma performAll_keeps (E : ErrorObjects) (ops : list Operation) :
  forall this : MainCheckoutService,
    itemRepository (performAll this ops) = itemRepository this
    /\ promotionServices (performAll this ops) = promotionServices this.
Proof.
  induction ops as [| op ops IH]; intros this; [split; reflexivity |].
  change (performAll this (op :: ops)) with (performAll (perform this op) ops).
  destruct (IH (perform this op)) as [-> ->]. apply perform_keeps.
Qed.

(** X8. The collaborators of a session are fixed at construction: whatever
    sequence of [clear], [scan], [summary] and [total] is run, the session
    keeps the repository that was injected (the demo repository when none
    was) and the promotion strategies it was given, in their order. *)
Theorem operations_keep_collaborators (E : ErrorObjects)
    (testItemRepository : ItemRepository) (services : list PromotionService)
    (injected : option ItemRepository) (ops : list Operation) :
  itemRepository (performAll (constructor testItemRepository services injected) ops)
  = default testItemRepository injected
  /\ promotionServices (performAll (constructor testItemRepository services injected) ops)
     = services.
Proof.
  destruct (performAll_keeps E ops (constructor testItemRepository services injected))
    as [-> ->].
  split; [now destruct injected | reflexivity].
Qed.

(** X9. [clear] forgets the whole history: after any sequence of operations
    on a freshly constructed session, [clear] gives back the freshly
    constructed session, promotions that were pushed on the cart included. *)
Theorem clear_resets_to_fresh (E : ErrorObjects)
    (testItemRepository : ItemRepository) (services : list PromotionService)
    (injected : option ItemRepository) (ops : list Operation) :
  session_of (clear (performAll (constructor testItemRepository services injected) ops))
  = constructor testItemRepository services injected
  /\ output_of (summary (session_of
       (clear (performAll (constructor testItemRepository services injected) ops))))
     = {| data := None; error := Some EmptyCartError |}.
Proof.
  assert (Hfresh : session_of (clear (performAll
                     (constructor testItemRepository services injected) ops))
                   = constructor testItemRepository services injected).
  { unfold clear, session_of, with_items. cbn [fst snd].
    destruct (performAll_keeps E ops (constructor testItemRepository services injected))
      as [-> ->].
    reflexivity. }
  split; [exact Hfresh | now rewrite Hfresh].
Qed.

(** ** Where the items of the cart come from *)

Lemma applyPromotions_provenance services : forall cart cart' calls fault,
  applyPromotions services cart = (cart', calls, fault) ->
  forall item, In item cart' -> In item cart \/ fromPromotion services item.
Proof.
  induction services as [| p rest IH]; intros cart cart' calls fault Hrun item Hin.
  - injection Hrun as <- <- <-. now left.
  - cbn [applyPromotions] in Hrun.
    destruct (apply p cart) as [added | f] eqn:Hp.
    + destruct (applyPromotions rest (cart ++ added)) as [[c k] f] eqn:Hrest.
      injection Hrun as <- <- <-.
      destruct (IH _ _ _ _ Hrest item Hin) as [Hcart | (q & c' & a & Hq & Ha & Hitem)].
      * apply in_app_or in Hcart as [Hold | Hnew]; [now left | right].
        exists p, cart, added. repeat split; [now left | exact Hp | exact Hnew].
      * right. exists q, c', a. repeat split; [now right | exact Ha | exact Hitem].
    + injection Hrun as <- <- <-. now left.
Qed.

Lemma summary_provenance (this : MainCheckoutService) (item : Item) :
  In item (items (session_of (summary this))) ->
  In item (items this) \/ fromPromotion (promotionServices this) item.
Proof.
  destruct (cart_empty_or_not this) as [Hempty | Hne].
  - rewrite (summary_empty this Hempty). now left.
  - destruct (applyPromotions (promotionServices this) (items this))
      as [[cart calls] fault] eqn:Hrun.
    rewrite (summary_populated this _ _ _ Hne Hrun).
    intros Hin. apply (applyPromotions_provenance _ _ _ _ _ Hrun).
    now destruct fault.
Qed.

Lemma scan_provenance (E : ErrorObjects) (this : MainCheckoutService)
    (itemSKU : SkuArg) (item : Item) :
  In item (items (session_of (scan this itemSKU))) ->
  In item (items this) \/ fromRepository (itemRepository this) item.
Proof.
  destruct itemSKU as [| | s]; try (now left).
  rewrite scan_session. unfold found.
  destruct (isEmpty_string s); [now left |].
  destruct (selectOne (itemRepository this) s) as [o | f] eqn:Ho; [| now left].
  destruct (isEmpty_option error_isEmpty (error o)); [| now left].
  destruct (data o) as [i |] eqn:Hdata; [| now left].
  cbn. intros Hin. apply in_app_or in Hin as [Hold | [<- | []]]; [now left | right].
  now exists s, o.
Qed.

Lemma perform_provenance (E : ErrorObjects) (this : MainCheckoutService)
    (op : Operation) (item : Item) :
  In item (items (perform this op)) ->
  In item (items this)
  \/ fromRepository (itemRepository this) item
  \/ fromPromotion (promotionServices this) item.
Proof.
  destruct op as [| itemSKU | |]; cbn [perform].
  - intros [].
  - intros Hin. destruct (scan_provenance E this itemSKU item Hin); tauto.
  - intros Hin. destruct (summary_provenance this item Hin); tauto.
  - rewrite total_session. intros Hin.
    destruct (summary_provenance this item Hin); tauto.
Qed.

(** X10. Nothing enters the cart but what the collaborators handed over:
    after any sequence of operations, every item of the cart was in the cart
    at the start, or is the data of an answer of the session's repository, or
    is among the items one of the session's promotion strategies returns; on
    a freshly constructed session only the last two remain. *)
Theorem cart_provenance (E : ErrorObjects) (ops : list Operation) :
  (forall (this : MainCheckoutService) (item : Item),
     In item (items (performAll this ops)) ->
     In item (items this)
     \/ fromRepository (itemRepository this) item
     \/ fromPromotion (promotionServices this) item)
  /\ (forall (testItemRepository : ItemRepository) (services : list PromotionService)
             (injected : option ItemRepository) (item : Item),
        In item (items (performAll (constructor testItemRepository services injected) ops)) ->
        fromRepository (default testItemRepository injected) item
        \/ fromPromotion services item).
Proof.
  assert (Hall : forall (this : MainCheckoutService) (item : Item),
            In item (items (performAll this ops)) ->
            In item (items this)
            \/ fromRepository (itemRepository this) item
            \/ fromPromotion (promotionServices this) item).
  { induction ops as [| op ops IH]; intros this item Hin; [now left |].
    change (performAll this (op :: ops)) with (performAll (perform this op) ops) in Hin.
    destruct (perform_keeps E this op) as [Hrepo Hservices].
    destruct (IH (perform this op) item Hin) as [Hcart | Hfrom].
    - exact (perform_provenance E this op item Hcart).
    - rewrite Hrepo, Hservices in Hfrom. now right. }
  split; [exact Hall |].
  intros testItemRepository services injected item Hin.
  destruct (Hall _ item Hin) as [[] | Hfrom].
  destruct injected; exact Hfrom.
Qed.

Lemma cart_provenance_witness :
  fromRepository (MockItemRepository.repository store0) promotionRuleItem1
  \/ fromPromotion [bundlePromotionService] promotionRuleItem1.
Proof.
  apply (proj2 (cart_provenance namedErrors
                  [DoScan (Str "p01"); DoScan (Str "p01"); DoSummary; DoTotal])
           (MockItemRepository.repository ∅) [bundlePromotionService]
           (Some (MockItemRepository.repository store0)) promotionRuleItem1).
  vm_compute. left. reflexivity.
Defined.

(** ** The state machine and the growth of the cart *)

Lemma summary_state (this : MainCheckoutService) :
  state_of (session_of (summary this)) = state_of this.
Proof.
  destruct (cart_empty_or_not this) as [Hempty | Hne].
  - now rewrite (summary_empty this Hempty).
  - rewrite summary_session. unfold state_of, with_items. cbn [items].
    destruct (items this); [contradiction | reflexivity].
Qed.

(** X11. The transitions of the session: [clear] leads to [Empty] from
    every state, a [scan] that answers [data = true] leads to [Populated]
    and any other [scan] leaves the state as it is, and [summary] and [total]
    never change the state (an empty cart stays empty, a populated one stays
    populated). *)
Theorem session_transitions (E : ErrorObjects) (this : MainCheckoutService) :
  state_of (perform this DoClear) = Empty
  /\ (forall itemSKU,
        state_of (perform this (DoScan itemSKU))
        = match data (output_of (scan this itemSKU)) with
          | Some true => Populated
          | _ => state_of this
          end)
  /\ state_of (perform this DoSummary) = state_of this
  /\ state_of (perform this DoTotal) = state_of this.
Proof.
  split; [reflexivity |].
  split; [| split].
  - intros itemSKU. cbn [perform]. unfold scan.
    destruct (sku_truthy itemSKU) as [s |]; [| reflexivity].
    destruct (selectOne (itemRepository this) s) as [o | f]; [| reflexivity].
    destruct (negb (isEmpty_option error_isEmpty (error o))); [reflexivity |].
    destruct (data o) as [item |]; [| reflexivity].
    unfold state_of, session_of, output_of. cbn. now destruct (items this).
  - cbn [perform]. apply summary_state.
  - cbn [perform]. rewrite total_session. apply summary_state.
Qed.

Lemma perform_grows (E : ErrorObjects) (this : MainCheckoutService) (op : Operation) :
  op <> DoClear ->
  exists added, items (perform this op) = items this ++ added.
Proof.
  intros Hop. destruct op as [| itemSKU | |]; [contradiction | | |]; cbn [perform].
  - destruct itemSKU as [| | s]; try (exists []; cbn; now rewrite app_nil_r).
    rewrite scan_session. destruct (found (itemRepository this) s) as [item |].
    + now exists [item].
    + exists []. now rewrite app_nil_r.
  - rewrite summary_session. now eexists.
  - rewrite total_session, summary_session. now eexists.
Qed.

(** X12. Between two calls of [clear] the cart only grows: after any
    sequence of [scan], [summary] and [total], the cart at the start is a
    prefix of the cart at the end, so every item keeps its position and
    nothing is removed or reordered. *)
Theorem cart_grows_until_clear (E : ErrorObjects) (ops : list Operation) :
  Forall (fun op => op <> DoClear) ops ->
  forall this : MainCheckoutService,
    (exists added, items (performAll this ops) = items this ++ added)
    /\ (forall i item,
          items this !! i = Some item ->
          items (performAll this ops) !! i = Some item).
Proof.
  intros Hops.
  assert (Hgrow : forall this : MainCheckoutService,
            exists added, items (performAll this ops) = items this ++ added).
  { induction Hops as [| op ops Hop Hrest IH]; intros this.
    - exists []. cbn. now rewrite app_nil_r.
    - change (performAll this (op :: ops)) with (performAll (perform this op) ops).
      destruct (IH (perform this op)) as [later ->].
      destruct (perform_grows E this op Hop) as [added ->].
      exists (added ++ later). now rewrite app_assoc. }
  intros this. split; [apply Hgrow |].
  intros i item Hi. destruct (Hgrow this) as [added ->].
  now apply lookup_app_l_Some.
Qed.

Lemma cart_grows_until_clear_witness :
  let this := @scanAll namedErrors (checkoutService store0) ["p01"; "p01"] in
  let ops := [DoSummary; DoScan (Str "p02"); DoScan (Str "t03"); DoTotal] in
  (exists added, items (@performAll namedErrors this ops) = items this ++ added)
  /\ (forall i item,
        items this !! i = Some item ->
        items (@performAll namedErrors this ops) !! i = Some item).
Proof.
  intros this ops. apply (cart_grows_until_clear namedErrors ops).
  repeat constructor; discriminate.
Defined.
